(** * safety.h: device checks over the PROS 4 device registry

    A shallow embedding of [namespace safety] (src/safety.h) and the
    properties of its predicates, validators, report and watchdog task.

    The functions of [safety.h] talk to three collaborators that live in
    [api.h]: the device registry ([pros::v5::Device::get_plugged_type]),
    the controller ([rumble], [print]) and the scheduler ([pros::delay]).
    Every call to one of them is an [event]; a function of the namespace
    is a computation that, started at some time, yields a value, the
    events it raised in order, and the time at which it is done. *)

From Stdlib Require Import ZArith List String Ascii Bool Lia DecimalString.
Import ListNotations.
Local Open Scope string_scope.
Local Open Scope Z_scope.
Local Open Scope list_scope.

(** ** Data model *)

(** [pros::v5::DeviceType].  The twelve enumerators are those the
    [switch] of [deviceType_to_string] names (they are pairwise distinct,
    being the case labels of one switch); [synthesized raw] stands for
    any other value of the enum's underlying integer type, which is what
    reaches the [default:] label. *)
Inductive DeviceType : Type :=
| none
| undefined
| motor
| rotation
| imu
| radio
| distance
| vision
| adi
| optical
| gps
| serial
| synthesized (raw : Z).

Definition DeviceType_eq_dec (a b : DeviceType) : {a = b} + {a <> b}.
Proof. decide equality. apply Z.eq_dec. Defined.

(** [a == b] on [DeviceType]. *)
Definition DeviceType_eqb (a b : DeviceType) : bool :=
  if DeviceType_eq_dec a b then true else false.

(** [pros::v5::Device]: all the namespace uses of a handle is its port. *)
Record Device : Type := { get_port : Z }.

(** [pros::v5::MotorGroup]: all the namespace uses is [get_port_all()]. *)
Record MotorGroup : Type := { get_port_all : list Z }.

(** [pros::v5::Controller]: the handle [rumble] and [print] are called on. *)
Record Controller : Type := { controller_id : Z }.

Definition Controller_eq_dec (a b : Controller) : {a = b} + {a <> b}.
Proof. decide equality. apply Z.eq_dec. Defined.

(** Calls that leave the namespace, in the order they are made. *)
Inductive event : Type :=
| ev_get_plugged_type (port : Z) (answer : DeviceType)
| ev_rumble (master : Controller) (pattern : string)
| ev_print (master : Controller) (line col : Z) (text : string)
| ev_delay (milliseconds : Z).

Definition is_rumble (e : event) : bool :=
  match e with ev_rumble _ _ => true | _ => false end.

Definition is_print (e : event) : bool :=
  match e with ev_print _ _ _ _ => true | _ => false end.

Definition is_query (e : event) : bool :=
  match e with ev_get_plugged_type _ _ => true | _ => false end.

Definition is_delay (e : event) : bool :=
  match e with ev_delay _ => true | _ => false end.

Definition is_feedback (e : event) : bool := is_rumble e || is_print e.

(** ** Computations *)

(** What a computation started at some time leaves behind. *)
Record outcome (A : Type) : Type :=
  { value : A; events : list event; clock : Z }.
Arguments value {A} _.
Arguments events {A} _.
Arguments clock {A} _.
Arguments Build_outcome {A} _ _ _.

(** A computation reads the time (in milliseconds) it starts at. *)
Definition M (A : Type) : Type := Z -> outcome A.

Definition ret {A} (a : A) : M A :=
  fun t => Build_outcome a [] t.

Definition bind {A B} (c : M A) (f : A -> M B) : M B :=
  fun t =>
    let r1 := c t in
    let r2 := f (value r1) (clock r1) in
    Build_outcome (value r2) (events r1 ++ events r2) (clock r2).

Notation "x <- c1 ;; c2" := (bind c1 (fun x => c2))
  (at level 61, c1 at next level, right associativity).
Notation "c1 ;; c2" := (bind c1 (fun _ => c2))
  (at level 61, right associativity).

(** [a || b] and [a && b] evaluate [b] only when [a] does not decide. *)
Definition or_else (a b : M bool) : M bool :=
  x <- a ;; if x then ret true else b.

Definition and_then (a b : M bool) : M bool :=
  x <- a ;; if x then b else ret false.

(** Range-based [for] whose body updates an accumulator. *)
Fixpoint for_each {A S} (xs : list A) (body : A -> S -> M S) (s : S) : M S :=
  match xs with
  | [] => ret s
  | x :: rest => s' <- body x s ;; for_each rest body s'
  end.

(** Range-based [for] whose body may [return v] ([Some v]) out of the
    enclosing function; [None] when the loop runs to its end. *)
Fixpoint for_each_return {A R} (xs : list A) (body : A -> M (option R))
  : M (option R) :=
  match xs with
  | [] => ret None
  | x :: rest =>
      r <- body x ;;
      match r with
      | Some v => ret (Some v)
      | None => for_each_return rest body
      end
  end.

(** [std::to_string(int)]: decimal digits, with a leading minus sign. *)
Definition to_string (n : Z) : string := NilZero.string_of_int (Z.to_int n).

Definition newline : string := String (ascii_of_nat 10) EmptyString.

(** How long the object that owns the characters behind a
    [const char*] lives, seen from the caller of the function that
    returned the pointer. *)
Inductive lifetime : Type :=
| outlives_call
| ends_at_return.

(** A [const char*] a function returns: the text it pointed to when it
    was made, and the lifetime of the object that owns that text. *)
Record c_str : Type := { pointed_text : string; owner : lifetime }.

(** [s.c_str()] returned for a [std::string s] that is a local of the
    returning function: [s] is destroyed when the function returns. *)
Definition c_str_of_local (s : string) : c_str :=
  {| pointed_text := s; owner := ends_at_return |}.

(** What the caller can read through a returned pointer: the text, when
    its owner is still alive; nothing that is defined, when it is not. *)
Definition read_after_return (p : c_str) : option string :=
  match owner p with
  | outlives_call => Some (pointed_text p)
  | ends_at_return => None
  end.

(** "Present": the kind is neither [none] nor [undefined]. *)
Definition kind_present (k : DeviceType) : bool :=
  match k with
  | none | undefined => false
  | _ => true
  end.

Section Safety.

(** The registry: the kind plugged at a port at a time.  It is read
    only through [get_plugged_type] and can change only while the task
    is suspended in [pros::delay]. *)
Variable plugged : Z -> Z -> DeviceType.

(** *** Collaborators of [api.h] *)

Definition get_plugged_type (port : Z) : M DeviceType :=
  fun t => Build_outcome (plugged t port)
                         [ev_get_plugged_type port (plugged t port)] t.

Definition rumble (master : Controller) (pattern : string) : M unit :=
  fun t => Build_outcome tt [ev_rumble master pattern] t.

Definition print (master : Controller) (line col : Z) (text : string)
  : M unit :=
  fun t => Build_outcome tt [ev_print master line col text] t.

Definition delay (milliseconds : Z) : M unit :=
  fun t => Build_outcome tt [ev_delay milliseconds] (t + milliseconds).

(** [get_plugged_type(port) == k] *)
Definition plugged_type_is (port : Z) (k : DeviceType) : M bool :=
  a <- get_plugged_type port ;; ret (DeviceType_eqb a k).

(** *** [namespace safety] *)

Definition isPluggedIn (port : Z) : M bool :=
  b <- or_else (plugged_type_is port none)
               (plugged_type_is port undefined) ;;
  ret (negb b).

Definition isMotor (port : Z) : M bool := plugged_type_is port motor.

Definition isImu (port : Z) : M bool := plugged_type_is port imu.

Definition isRadio (port : Z) : M bool := plugged_type_is port radio.

Definition isRotation (port : Z) : M bool := plugged_type_is port rotation.

Definition checkMotorGroup (group : MotorGroup) : M (list Z) :=
  for_each (get_port_all group)
    (fun port ports =>
       m <- isMotor port ;;
       let ports := if negb m then ports ++ [port] else ports in
       p <- isPluggedIn port ;;
       let ports := if p then ports ++ [port] else ports in
       ret ports)
    [].

Definition checkImu (port : Z) : M bool :=
  and_then (plugged_type_is port imu) (isPluggedIn port).

Definition checkDevices (devices : list Device) : M (list Z) :=
  for_each devices
    (fun device ports =>
       p <- isPluggedIn (get_port device) ;;
       if negb p then ret (ports ++ [get_port device]) else ret ports)
    [].

Definition deviceType_to_string (type : DeviceType) : string :=
  match type with
  | none => "none"
  | undefined => "undefined"
  | motor => "motor"
  | rotation => "rotation"
  | imu => "imu"
  | radio => "radio"
  | distance => "distance"
  | vision => "vision"
  | adi => "adi"
  | optical => "optical"
  | gps => "gps"
  | serial => "serial"
  | synthesized _ => "unknown"
  end.

(** The loop of [print_unplugged_devices]: the text held by its local
    [output] when [return output.c_str()] is reached. *)
Definition print_unplugged_devices_output (devices : list Device)
  : M string :=
  for_each devices
    (fun device output =>
       p <- isPluggedIn (get_port device) ;;
       if p then
         k <- get_plugged_type (get_port device) ;;
         ret (output ++
                (deviceType_to_string k ++ ": "
                   ++ to_string (get_port device) ++ "," ++ newline))%string
       else ret output)
    "".

(** [print_unplugged_devices] returns [output.c_str()], a pointer into
    its local [output], which is destroyed by the return. *)
Definition print_unplugged_devices (devices : list Device) : M c_str :=
  output <- print_unplugged_devices_output devices ;;
  ret (c_str_of_local output).

(** One pass of the [for] loop inside [while (true)]. *)
Definition scan_devices (master : Controller) (devices : list Device)
  : M (option Z) :=
  for_each_return devices
    (fun device =>
       p <- isPluggedIn (get_port device) ;;
       if negb p then
         rumble master "---" ;;
         print master 0 0 "DEVICE UNPLUGGED!!!" ;;
         ret (Some 1)
       else ret None).

(** [while (true)], cut after [fuel] passes: [Some v] when the task
    executed [return v], [None] when it is still looping. *)
Fixpoint task_check_devices (fuel : nat) (master : Controller)
         (devices : list Device) : M (option Z) :=
  match fuel with
  | O => ret None
  | S fuel' =>
      r <- scan_devices master devices ;;
      match r with
      | Some v => ret (Some v)
      | None => delay 500 ;; task_check_devices fuel' master devices
      end
  end.

(** *** What the registry says, without the calls *)

(** The registry reads one call of [isPluggedIn] makes: the second
    comparison is evaluated only when the first one fails. *)
Definition presence_queries (t port : Z) : list event :=
  match plugged t port with
  | none => [ev_get_plugged_type port none]
  | k => [ev_get_plugged_type port k; ev_get_plugged_type port k]
  end.

(** What one turn of the loop of [checkMotorGroup] appends for a port:
    the port when its kind is not [motor], then the port when a device
    is plugged in. *)
Definition motor_group_appends (t port : Z) : list Z :=
  (if negb (DeviceType_eqb (plugged t port) motor) then [port] else [])
    ++ (if kind_present (plugged t port) then [port] else []).

(** The registry reads one turn of the loop of [checkMotorGroup] makes. *)
Definition motor_group_queries (t port : Z) : list event :=
  ev_get_plugged_type port (plugged t port) :: presence_queries t port.

(** The ports that fail "a device is plugged in and it is a motor", as
    the documentation of [checkMotorGroup] words its result ("ports that
    are not motors or are not plugged in"). *)
Definition not_motor_or_not_plugged (t : Z) (ports : list Z) : list Z :=
  filter (fun port =>
            negb (DeviceType_eqb (plugged t port) motor)
            || negb (kind_present (plugged t port)))
         ports.

(** One line of the report of [print_unplugged_devices]. *)
Definition report_line (t : Z) (device : Device) : string :=
  (deviceType_to_string (plugged t (get_port device)) ++ ": "
     ++ to_string (get_port device) ++ "," ++ newline)%string.

(** The registry reads one turn of the loop of
    [print_unplugged_devices] makes. *)
Definition report_queries (t : Z) (d : Device) : list event :=
  presence_queries t (get_port d)
    ++ (if kind_present (plugged t (get_port d))
        then [ev_get_plugged_type (get_port d) (plugged t (get_port d))]
        else []).

(** Every device of the list is present at time [t]. *)
Definition all_present (t : Z) (devices : list Device) : bool :=
  forallb (fun d => kind_present (plugged t (get_port d))) devices.

(** The registry reads of one pass over [devices] that goes to its end. *)
Definition scan_queries (t : Z) (devices : list Device) : list event :=
  flat_map (fun d => presence_queries t (get_port d)) devices.

(** The time at which pass number [k] of a task started at [t0] is made,
    every earlier pass having ended in [pros::delay(500)]. *)
Definition pass_time (t0 : Z) (k : nat) : Z := t0 + 500 * Z.of_nat k.

(** The events of [n] passes that find every device present. *)
Fixpoint quiet_passes (n : nat) (t : Z) (devices : list Device)
  : list event :=
  match n with
  | O => []
  | S n' =>
      scan_queries t devices
        ++ ev_delay 500 :: quiet_passes n' (t + 500) devices
  end.

(** In the run of the task started at [t0], pass number [n] is the first
    one in which a device is absent, and the first absent device in the
    order of [devices] is at port [p]. *)
Definition first_absent_at (devices : list Device) (t0 : Z) (n : nat)
           (p : Z) : Prop :=
  (forall k, (k < n)%nat -> all_present (pass_time t0 k) devices = true)
  /\ exists pre d post,
      devices = pre ++ d :: post
      /\ all_present (pass_time t0 n) pre = true
      /\ kind_present (plugged (pass_time t0 n) (get_port d)) = false
      /\ get_port d = p.

End Safety.

(** What the task lets the rest of the program see of a run: the value
    it returned and the calls it made on the controller. *)
Definition task_result (r : outcome (option Z)) : option Z * list event :=
  (value r, filter is_feedback (events r)).

Definition concat_lines (lines : list string) : string :=
  fold_right String.append EmptyString lines.

(** ** Scenarios *)

Definition master0 : Controller := {| controller_id := 0 |}.

Definition device_at (port : Z) : Device := {| get_port := port |}.

(** A motor at port 1 and an inertial sensor at port 10, for ever. *)
Definition registry_steady (t port : Z) : DeviceType :=
  if port =? 1 then motor else if port =? 10 then imu else none.

(** As [registry_steady], until the sensor at port 10 goes at 1.2 s. *)
Definition registry_imu_lost (t port : Z) : DeviceType :=
  if port =? 1 then motor
  else if port =? 10 then (if t <? 1200 then imu else none)
  else none.

(** A motor at port 1; nothing at ports 2 and 3. *)
Definition registry_two_lost (t port : Z) : DeviceType :=
  if port =? 1 then motor else none.

(** A motor at port 1, nothing at port 2, a rotation sensor at port 3. *)
Definition registry_mixed (t port : Z) : DeviceType :=
  if port =? 1 then motor else if port =? 3 then rotation else none.

(** Number of times a character occurs in a text. *)
Fixpoint count_char (c : ascii) (s : string) : nat :=
  match s with
  | EmptyString => 0
  | String a rest => (if Ascii.eqb a c then 1 else 0) + count_char c rest
  end.

(** The character a report line ends with. *)
Definition line_feed : ascii := ascii_of_nat 10.

(** How many times one turn of the loop of [checkMotorGroup] appends its
    port, by the kind plugged at it. *)
Definition motor_group_multiplicity (k : DeviceType) : nat :=
  match k with
  | motor | none | undefined => 1
  | _ => 2
  end.

(** ** Basic facts *)

Lemma DeviceType_eqb_eq (a b : DeviceType) :
  DeviceType_eqb a b = true <-> a = b.
Proof.
  unfold DeviceType_eqb.
  destruct (DeviceType_eq_dec a b) as [e | n]; split; intro H;
    try assumption; try reflexivity; try discriminate.
  contradiction.
Qed.

Lemma kind_present_spec (k : DeviceType) :
  kind_present k = true <-> k <> none /\ k <> undefined.
Proof.
  destruct k; simpl; split; intro H;
    try discriminate; try reflexivity;
    try (split; discriminate);
    destruct H as [H1 H2]; congruence.
Qed.

Lemma string_append_assoc (a b c : string) :
  ((a ++ b) ++ c = a ++ (b ++ c))%string.
Proof. induction a as [| ch a IH]; simpl; [reflexivity | now rewrite IH]. Qed.

Lemma string_append_empty_r (a : string) : (a ++ "")%string = a.
Proof. induction a as [| ch a IH]; simpl; [reflexivity | now rewrite IH]. Qed.

(** A loop whose body neither waits nor lets its events depend on the
    accumulator is a fold of its value part. *)
Lemma for_each_run {A S} (body : A -> S -> M S)
      (step : S -> A -> S) (evs : A -> list event) (t : Z) :
  (forall x s, body x s t = Build_outcome (step s x) (evs x) t) ->
  forall xs s,
    for_each xs body s t
    = Build_outcome (fold_left step xs s) (flat_map evs xs) t.
Proof.
  intros Hbody xs.
  induction xs as [| x rest IH]; intro s.
  - reflexivity.
  - cbn [for_each fold_left flat_map]. unfold bind.
    rewrite Hbody. cbn [value events clock].
    rewrite IH. reflexivity.
Qed.

(** A loop none of whose turns returns runs to its end. *)
Lemma for_each_return_none {A R} (body : A -> M (option R))
      (evs : A -> list event) (t : Z) (xs : list A) :
  (forall x, In x xs -> body x t = Build_outcome None (evs x) t) ->
  for_each_return xs body t = Build_outcome None (flat_map evs xs) t.
Proof.
  induction xs as [| x rest IH]; intro Hbody.
  - reflexivity.
  - cbn [for_each_return flat_map]. unfold bind.
    rewrite (Hbody x (or_introl eq_refl)). cbn [value events clock].
    rewrite IH by (intros y Hy; apply Hbody; right; exact Hy).
    reflexivity.
Qed.

(** A loop stops at the first turn that returns: what comes after it in
    the list is not looked at. *)
Lemma for_each_return_some {A R} (body : A -> M (option R))
      (evs : A -> list event) (t : Z) (pre post : list A) (x : A)
      (v : R) (e : list event) (t' : Z) :
  (forall y, In y pre -> body y t = Build_outcome None (evs y) t) ->
  body x t = Build_outcome (Some v) e t' ->
  for_each_return (pre ++ x :: post) body t
  = Build_outcome (Some v) (flat_map evs pre ++ e) t'.
Proof.
  intros Hpre Hx.
  induction pre as [| y rest IH].
  - cbn [app for_each_return flat_map]. unfold bind.
    rewrite Hx. cbn. now rewrite app_nil_r.
  - cbn [app for_each_return flat_map]. unfold bind.
    rewrite (Hpre y (or_introl eq_refl)). cbn [value events clock].
    rewrite IH by (intros z Hz; apply Hpre; right; exact Hz).
    cbn [value events clock]. now rewrite app_assoc.
Qed.

Section Runs.

Variable plugged : Z -> Z -> DeviceType.

Lemma plugged_type_is_run (port : Z) (k : DeviceType) (t : Z) :
  plugged_type_is plugged port k t =
    Build_outcome (DeviceType_eqb (plugged t port) k)
                  [ev_get_plugged_type port (plugged t port)] t.
Proof. reflexivity. Qed.

Lemma isPluggedIn_run (port t : Z) :
  isPluggedIn plugged port t =
    Build_outcome (kind_present (plugged t port))
                  (presence_queries plugged t port) t.
Proof.
  unfold isPluggedIn, or_else, bind, presence_queries.
  rewrite plugged_type_is_run. cbn [value clock events].
  destruct (plugged t port) eqn:K; cbn; rewrite ?K; reflexivity.
Qed.

Lemma isPluggedIn_value (port t : Z) :
  value (isPluggedIn plugged port t) = kind_present (plugged t port).
Proof. rewrite isPluggedIn_run. reflexivity. Qed.

(** Selecting events among registry reads: nothing is selected by a
    test that rejects every registry read. *)
Lemma presence_queries_filter (sel : event -> bool) (t port : Z) :
  (forall p k, sel (ev_get_plugged_type p k) = false) ->
  filter sel (presence_queries plugged t port) = [].
Proof.
  intro Hsel. unfold presence_queries.
  destruct (plugged t port); cbn [filter]; rewrite ?Hsel; reflexivity.
Qed.

Lemma scan_queries_filter (sel : event -> bool) (t : Z)
      (devices : list Device) :
  (forall p k, sel (ev_get_plugged_type p k) = false) ->
  filter sel (scan_queries plugged t devices) = [].
Proof.
  intro Hsel. unfold scan_queries.
  induction devices as [| d rest IH]; cbn [flat_map].
  - reflexivity.
  - rewrite filter_app, presence_queries_filter, IH by exact Hsel.
    reflexivity.
Qed.

Lemma quiet_passes_filter (sel : event -> bool) (n : nat) (t : Z)
      (devices : list Device) :
  (forall p k, sel (ev_get_plugged_type p k) = false) ->
  (forall ms, sel (ev_delay ms) = false) ->
  filter sel (quiet_passes plugged n t devices) = [].
Proof.
  intros Hsel Hdelay.
  revert t. induction n as [| n IH]; intro t; cbn [quiet_passes].
  - reflexivity.
  - rewrite filter_app, scan_queries_filter by exact Hsel.
    cbn [app filter]. rewrite Hdelay. apply IH.
Qed.

Lemma quiet_passes_delays (n : nat) (t : Z) (devices : list Device) :
  filter is_delay (quiet_passes plugged n t devices)
  = repeat (ev_delay 500) n.
Proof.
  revert t. induction n as [| n IH]; intro t; cbn [quiet_passes repeat].
  - reflexivity.
  - rewrite filter_app, scan_queries_filter by reflexivity.
    cbn. now rewrite IH.
Qed.

Lemma fold_motor_group_appends (t : Z) (ports_in acc : list Z) :
  fold_left (fun ports port => ports ++ motor_group_appends plugged t port)
            ports_in acc
  = acc ++ flat_map (motor_group_appends plugged t) ports_in.
Proof.
  revert acc.
  induction ports_in as [| port rest IH]; intro acc; cbn [fold_left flat_map].
  - now rewrite app_nil_r.
  - rewrite IH. now rewrite app_assoc.
Qed.

Lemma checkMotorGroup_run (group : MotorGroup) (t : Z) :
  checkMotorGroup plugged group t
  = Build_outcome
      (flat_map (motor_group_appends plugged t) (get_port_all group))
      (flat_map (motor_group_queries plugged t) (get_port_all group))
      t.
Proof.
  unfold checkMotorGroup.
  rewrite for_each_run
    with (step := fun ports port =>
                    ports ++ motor_group_appends plugged t port)
         (evs := motor_group_queries plugged t).
  - now rewrite fold_motor_group_appends.
  - intros port ports.
    unfold bind, isMotor. rewrite plugged_type_is_run, isPluggedIn_run.
    cbn [value events clock ret]. unfold motor_group_appends.
    destruct (negb (DeviceType_eqb (plugged t port) motor));
      destruct (kind_present (plugged t port));
      cbn [app]; rewrite ?app_nil_r, <- ?app_assoc; reflexivity.
Qed.

Lemma fold_unplugged_ports (t : Z) (devices : list Device) (acc : list Z) :
  fold_left
    (fun ports d =>
       if kind_present (plugged t (get_port d)) then ports
       else ports ++ [get_port d])
    devices acc
  = acc ++ map get_port
          (filter (fun d => negb (kind_present (plugged t (get_port d))))
                  devices).
Proof.
  revert acc.
  induction devices as [| d rest IH]; intro acc; cbn [fold_left filter].
  - now rewrite app_nil_r.
  - rewrite IH.
    destruct (kind_present (plugged t (get_port d))); cbn [negb map].
    + reflexivity.
    + now rewrite <- app_assoc.
Qed.

Lemma checkDevices_run (devices : list Device) (t : Z) :
  checkDevices plugged devices t
  = Build_outcome
      (map get_port
           (filter (fun d => negb (kind_present (plugged t (get_port d))))
                   devices))
      (scan_queries plugged t devices)
      t.
Proof.
  unfold checkDevices, scan_queries.
  rewrite for_each_run
    with (step := fun ports d =>
                    if kind_present (plugged t (get_port d)) then ports
                    else ports ++ [get_port d])
         (evs := fun d => presence_queries plugged t (get_port d)).
  - now rewrite fold_unplugged_ports.
  - intros d ports.
    unfold bind. rewrite isPluggedIn_run. cbn [value events clock].
    destruct (kind_present (plugged t (get_port d)));
      cbn [negb ret value events clock]; now rewrite app_nil_r.
Qed.

Lemma fold_report_lines (t : Z) (devices : list Device) (acc : string) :
  fold_left
    (fun output d =>
       if kind_present (plugged t (get_port d))
       then (output ++ report_line plugged t d)%string
       else output)
    devices acc
  = (acc ++ concat_lines
           (map (report_line plugged t)
                (filter (fun d => kind_present (plugged t (get_port d)))
                        devices)))%string.
Proof.
  revert acc.
  induction devices as [| d rest IH]; intro acc; cbn [fold_left filter].
  - cbn. now rewrite string_append_empty_r.
  - rewrite IH.
    destruct (kind_present (plugged t (get_port d))).
    + cbn [map concat_lines fold_right]. now rewrite string_append_assoc.
    + reflexivity.
Qed.

Lemma print_unplugged_devices_output_run (devices : list Device) (t : Z) :
  print_unplugged_devices_output plugged devices t
  = Build_outcome
      (concat_lines
         (map (report_line plugged t)
              (filter (fun d => kind_present (plugged t (get_port d)))
                      devices)))
      (flat_map (report_queries plugged t) devices)
      t.
Proof.
  unfold print_unplugged_devices_output.
  rewrite for_each_run
    with (step := fun output d =>
                    if kind_present (plugged t (get_port d))
                    then (output ++ report_line plugged t d)%string
                    else output)
         (evs := report_queries plugged t).
  - now rewrite fold_report_lines.
  - intros d output.
    unfold bind, report_queries. rewrite isPluggedIn_run.
    cbn [value events clock].
    destruct (kind_present (plugged t (get_port d)));
      cbn [get_plugged_type ret value events clock];
      rewrite ?app_nil_r; reflexivity.
Qed.

Lemma print_unplugged_devices_run (devices : list Device) (t : Z) :
  print_unplugged_devices plugged devices t
  = Build_outcome
      (c_str_of_local
         (concat_lines
            (map (report_line plugged t)
                 (filter (fun d => kind_present (plugged t (get_port d)))
                         devices))))
      (flat_map (report_queries plugged t) devices)
      t.
Proof.
  unfold print_unplugged_devices, bind.
  rewrite print_unplugged_devices_output_run.
  cbn [ret value events clock]. now rewrite app_nil_r.
Qed.

End Runs.

(** ** The watchdog task *)

Section Watchdog.

Variable plugged : Z -> Z -> DeviceType.
Variable master : Controller.

Lemma all_present_In (t : Z) (devices : list Device) (d : Device) :
  all_present plugged t devices = true ->
  In d devices ->
  kind_present (plugged t (get_port d)) = true.
Proof.
  unfold all_present. rewrite forallb_forall. intros H Hd. now apply H.
Qed.

(** A pass that finds every device present raises nothing but registry
    reads and falls out of the [for] loop. *)
Lemma scan_devices_quiet (t : Z) (devices : list Device) :
  all_present plugged t devices = true ->
  scan_devices plugged master devices t
  = Build_outcome None (scan_queries plugged t devices) t.
Proof.
  intro Hall. unfold scan_devices, scan_queries.
  apply for_each_return_none.
  intros d Hd. unfold bind. rewrite isPluggedIn_run.
  cbn [value events clock].
  rewrite (all_present_In t devices d Hall Hd).
  cbn. now rewrite app_nil_r.
Qed.

(** A pass stops at the first absent device: it has read the registry
    for the devices up to that one, rumbles, prints and returns 1. *)
Lemma scan_devices_trip (t : Z) (pre post : list Device) (d : Device) :
  all_present plugged t pre = true ->
  kind_present (plugged t (get_port d)) = false ->
  scan_devices plugged master (pre ++ d :: post) t
  = Build_outcome
      (Some 1)
      (scan_queries plugged t (pre ++ [d])
         ++ [ev_rumble master "---";
             ev_print master 0 0 "DEVICE UNPLUGGED!!!"])
      t.
Proof.
  intros Hpre Hd. unfold scan_devices, scan_queries.
  rewrite flat_map_app. cbn [flat_map]. rewrite app_nil_r, <- app_assoc.
  apply for_each_return_some.
  - intros y Hy. unfold bind. rewrite isPluggedIn_run.
    cbn [value events clock].
    rewrite (all_present_In t pre y Hpre Hy).
    cbn. now rewrite app_nil_r.
  - unfold bind. rewrite isPluggedIn_run. cbn [value events clock].
    rewrite Hd. reflexivity.
Qed.

Lemma pass_time_0 (t0 : Z) : pass_time t0 0 = t0.
Proof. unfold pass_time. lia. Qed.

Lemma pass_time_S (t0 : Z) (k : nat) :
  pass_time t0 (S k) = pass_time (t0 + 500) k.
Proof. unfold pass_time. lia. Qed.

(** As long as every pass finds every device present the task is still
    in its loop, having slept 500 ms after each pass. *)
Lemma task_check_devices_quiet (n : nat) (devices : list Device) (t0 : Z) :
  (forall k, (k < n)%nat ->
             all_present plugged (pass_time t0 k) devices = true) ->
  task_check_devices plugged n master devices t0
  = Build_outcome None (quiet_passes plugged n t0 devices) (pass_time t0 n).
Proof.
  revert t0. induction n as [| n IH]; intros t0 Hquiet.
  - cbn. now rewrite pass_time_0.
  - cbn [task_check_devices quiet_passes]. unfold bind at 1.
    rewrite scan_devices_quiet
      by (rewrite <- (pass_time_0 t0); apply Hquiet; lia).
    cbn [value events clock]. unfold bind.
    cbn [delay value events clock].
    rewrite IH
      by (intros k Hk; rewrite <- pass_time_S; apply Hquiet; lia).
    cbn [value events clock]. rewrite pass_time_S. reflexivity.
Qed.

(** The pass that finds a device absent ends the task, whatever fuel is
    left. *)
Lemma task_check_devices_trip (n fuel : nat) (t0 : Z)
      (pre post : list Device) (d : Device) :
  (forall k, (k < n)%nat ->
             all_present plugged (pass_time t0 k) (pre ++ d :: post) = true) ->
  all_present plugged (pass_time t0 n) pre = true ->
  kind_present (plugged (pass_time t0 n) (get_port d)) = false ->
  (n < fuel)%nat ->
  task_check_devices plugged fuel master (pre ++ d :: post) t0
  = Build_outcome
      (Some 1)
      (quiet_passes plugged n t0 (pre ++ d :: post)
         ++ scan_queries plugged (pass_time t0 n) (pre ++ [d])
         ++ [ev_rumble master "---";
             ev_print master 0 0 "DEVICE UNPLUGGED!!!"])
      (pass_time t0 n).
Proof.
  revert fuel t0. induction n as [| n IH]; intros fuel t0 Hquiet Hpre Hd Hfuel.
  - destruct fuel as [| fuel]; [lia |].
    rewrite pass_time_0 in *.
    cbn [task_check_devices quiet_passes app]. unfold bind at 1.
    rewrite scan_devices_trip by assumption.
    cbn [value events clock]. now rewrite app_nil_r.
  - destruct fuel as [| fuel]; [lia |].
    cbn [task_check_devices quiet_passes]. unfold bind at 1.
    rewrite scan_devices_quiet
      by (rewrite <- (pass_time_0 t0); apply Hquiet; lia).
    cbn [value events clock]. unfold bind.
    cbn [delay value events clock].
    rewrite pass_time_S in *.
    rewrite IH; try assumption; try lia.
    + cbn [value events clock]. rewrite <- app_assoc. reflexivity.
    + intros k Hk. rewrite <- pass_time_S. apply Hquiet. lia.
Qed.

End Watchdog.

(** ** The predicates *)

(** C3. For every port, [isPluggedIn] answers true exactly when the kind
    the registry reports for the port is neither [none] nor [undefined]. *)
Theorem isPluggedIn_iff_kind_present
        (plugged : Z -> Z -> DeviceType) (port t : Z) :
  value (isPluggedIn plugged port t) = true
  <-> plugged t port <> none /\ plugged t port <> undefined.
Proof.
  rewrite isPluggedIn_value. apply kind_present_spec.
Qed.

(** C8. For every port, [isMotor], [isImu], [isRadio] and [isRotation]
    answer true exactly when the registry reports [motor], [imu], [radio]
    and [rotation] for the port. *)
Theorem kind_predicates_iff_plugged_kind
        (plugged : Z -> Z -> DeviceType) (port t : Z) :
  (value (isMotor plugged port t) = true <-> plugged t port = motor)
  /\ (value (isImu plugged port t) = true <-> plugged t port = imu)
  /\ (value (isRadio plugged port t) = true <-> plugged t port = radio)
  /\ (value (isRotation plugged port t) = true
      <-> plugged t port = rotation).
Proof.
  unfold isMotor, isImu, isRadio, isRotation.
  rewrite !plugged_type_is_run. cbn [value].
  repeat split; intro H;
    solve [ apply DeviceType_eqb_eq; exact H ].
Qed.

(** C10. For every port and every answer of the registry, [checkImu]
    returns the boolean [isImu] returns: when the kind is [imu] it is
    neither [none] nor [undefined], so the second conjunct is true. *)
Theorem checkImu_eq_isImu
        (plugged : Z -> Z -> DeviceType) (port t : Z) :
  value (checkImu plugged port t) = value (isImu plugged port t).
Proof.
  unfold checkImu, isImu, and_then, bind.
  rewrite plugged_type_is_run. cbn [value clock].
  destruct (DeviceType_eqb (plugged t port) imu) eqn:E.
  - apply DeviceType_eqb_eq in E.
    rewrite isPluggedIn_value, E. reflexivity.
  - reflexivity.
Qed.

(** C7. [deviceType_to_string] gives each of the twelve enumerators its
    display name, and every other value the name "unknown". *)
Theorem deviceType_to_string_table :
  deviceType_to_string none = "none"
  /\ deviceType_to_string undefined = "undefined"
  /\ deviceType_to_string motor = "motor"
  /\ deviceType_to_string rotation = "rotation"
  /\ deviceType_to_string imu = "imu"
  /\ deviceType_to_string radio = "radio"
  /\ deviceType_to_string distance = "distance"
  /\ deviceType_to_string vision = "vision"
  /\ deviceType_to_string adi = "adi"
  /\ deviceType_to_string optical = "optical"
  /\ deviceType_to_string gps = "gps"
  /\ deviceType_to_string serial = "serial"
  /\ (forall raw : Z, deviceType_to_string (synthesized raw) = "unknown").
Proof.
  repeat split.
Qed.

(** ** The validators *)

(** C4. On the group [1; 2; 3] with a motor at port 1, nothing at port 2
    and a rotation sensor at port 3, [checkMotorGroup] returns
    [1; 2; 3; 3], while the ports that are not motors or are not plugged
    in, in the order of the group, are [2; 3]. *)
Example checkMotorGroup_mixed_group :
  value (checkMotorGroup registry_mixed {| get_port_all := [1; 2; 3] |} 0)
  = [1; 2; 3; 3]
  /\ not_motor_or_not_plugged registry_mixed 0 [1; 2; 3] = [2; 3].
Proof. split; reflexivity. Qed.

(** C5. For every group, [checkMotorGroup] appends, port after port, the
    port when its kind is not [motor] and, in a branch of its own, the
    port when a device is plugged in; so a port of the group at which a
    motor is plugged is in the result. *)
Theorem checkMotorGroup_appends_per_branch
        (plugged : Z -> Z -> DeviceType) (group : MotorGroup) (t : Z) :
  value (checkMotorGroup plugged group t)
  = flat_map
      (fun port =>
         (if negb (DeviceType_eqb (plugged t port) motor)
          then [port] else [])
           ++ (if kind_present (plugged t port) then [port] else []))
      (get_port_all group)
  /\ (forall port,
         In port (get_port_all group) ->
         plugged t port = motor ->
         In port (value (checkMotorGroup plugged group t))).
Proof.
  rewrite checkMotorGroup_run. cbn [value].
  split; [reflexivity |].
  intros port Hin Hmotor.
  apply in_flat_map. exists port. split; [exact Hin |].
  unfold motor_group_appends. rewrite Hmotor. cbn. left. reflexivity.
Qed.

Lemma checkMotorGroup_appends_per_branch_witness :
  In 1 (value (checkMotorGroup registry_mixed
                               {| get_port_all := [1; 2; 3] |} 0)).
Proof.
  apply (proj2 (checkMotorGroup_appends_per_branch
                  registry_mixed {| get_port_all := [1; 2; 3] |} 0)).
  - simpl. left. reflexivity.
  - reflexivity.
Defined.

(** C6. For every list of devices, [checkDevices] returns the ports of
    the devices whose kind is [none] or [undefined], in the order of the
    list. *)
Theorem checkDevices_lists_unplugged
        (plugged : Z -> Z -> DeviceType) (devices : list Device) (t : Z) :
  value (checkDevices plugged devices t)
  = map get_port
        (filter (fun d =>
                   DeviceType_eqb (plugged t (get_port d)) none
                   || DeviceType_eqb (plugged t (get_port d)) undefined)
                devices).
Proof.
  rewrite checkDevices_run. cbn [value]. f_equal.
  apply filter_ext. intro d.
  destruct (plugged t (get_port d)); reflexivity.
Qed.

(** The text [print_unplugged_devices] builds in its local [output]:
    the lines "<kind name>: <port>," followed by a line feed, one for
    each device of the list that is present, in the order of the list;
    the text is empty when no device of the list is present. *)
Lemma print_unplugged_devices_output_lines
        (plugged : Z -> Z -> DeviceType) (devices : list Device) (t : Z) :
  value (print_unplugged_devices_output plugged devices t)
  = concat_lines
      (map (fun d =>
              (deviceType_to_string (plugged t (get_port d)) ++ ": "
                 ++ to_string (get_port d) ++ "," ++ newline)%string)
           (filter (fun d => kind_present (plugged t (get_port d)))
                   devices))
  /\ ((forall d, In d devices ->
                 kind_present (plugged t (get_port d)) = false) ->
      value (print_unplugged_devices_output plugged devices t) = "").
Proof.
  rewrite print_unplugged_devices_output_run. cbn [value].
  split; [reflexivity |].
  intro Habsent.
  replace (filter (fun d => kind_present (plugged t (get_port d))) devices)
    with (@nil Device); [reflexivity |].
  symmetry.
  induction devices as [| d rest IH]; [reflexivity |].
  cbn [filter]. rewrite (Habsent d (or_introl eq_refl)).
  apply IH. intros d' Hd'. apply Habsent. right. exact Hd'.
Qed.

Lemma print_unplugged_devices_output_lines_witness :
  value (print_unplugged_devices_output registry_mixed [device_at 2; device_at 4] 0)
  = "".
Proof.
  apply (proj2 (print_unplugged_devices_output_lines
                  registry_mixed [device_at 2; device_at 4] 0)).
  intros d [<- | [<- | []]]; reflexivity.
Defined.

(** What the caller of [print_unplugged_devices] gets, for every list:
    the pointer returned owns nothing once the call is over, whatever
    text was built. *)
Lemma print_unplugged_devices_result_dangles
      (plugged : Z -> Z -> DeviceType) (devices : list Device) (t : Z) :
  pointed_text (value (print_unplugged_devices plugged devices t))
  = value (print_unplugged_devices_output plugged devices t)
  /\ owner (value (print_unplugged_devices plugged devices t))
     = ends_at_return
  /\ read_after_return (value (print_unplugged_devices plugged devices t))
     = None.
Proof.
  rewrite print_unplugged_devices_run, print_unplugged_devices_output_run.
  repeat split.
Qed.

(** C9. On the devices at ports 1 and 2, with a motor at port 1 and
    nothing at port 2, [print_unplugged_devices] builds the text
    "motor: 1," followed by a line feed in its local [output], but what
    it returns is [output.c_str()]: the local is destroyed by the
    return, and the caller can read no text through the result. *)
Example print_unplugged_devices_motor_and_none_dangles :
  value (print_unplugged_devices_output registry_mixed
                                        [device_at 1; device_at 2] 0)
  = ("motor: 1," ++ newline)%string
  /\ value (print_unplugged_devices registry_mixed
                                    [device_at 1; device_at 2] 0)
     = c_str_of_local ("motor: 1," ++ newline)%string
  /\ read_after_return
       (value (print_unplugged_devices registry_mixed
                                       [device_at 1; device_at 2] 0))
     = None.
Proof. repeat split. Qed.

(** ** The watchdog task: claims *)

(** C2. As long as every pass finds every device of the list present,
    the task has not returned and has made no call on the controller:
    after [n] such passes it is still in its loop, having raised nothing
    but the registry reads of each pass and one [delay(500)] after each
    of them. *)
Theorem task_check_devices_all_present_keeps_polling
        (plugged : Z -> Z -> DeviceType) (master : Controller)
        (devices : list Device) (t0 : Z) (n : nat) :
  (forall k, (k < n)%nat ->
             all_present plugged (pass_time t0 k) devices = true) ->
  let r := task_check_devices plugged n master devices t0 in
  value r = None
  /\ filter is_feedback (events r) = []
  /\ events r = quiet_passes plugged n t0 devices
  /\ filter is_delay (events r) = repeat (ev_delay 500) n
  /\ clock r = t0 + 500 * Z.of_nat n.
Proof.
  intros Hquiet r. subst r.
  rewrite (task_check_devices_quiet plugged master n devices t0 Hquiet).
  cbn [value events clock].
  repeat split.
  - apply quiet_passes_filter; reflexivity.
  - apply quiet_passes_delays.
Qed.

Lemma task_check_devices_all_present_keeps_polling_witness :
  (forall k, (k < 10)%nat ->
             all_present registry_steady (pass_time 0 k)
                         [device_at 1; device_at 10] = true)
  /\ value (task_check_devices registry_steady 10 master0
                               [device_at 1; device_at 10] 0) = None
  /\ filter is_feedback
            (events (task_check_devices registry_steady 10 master0
                                        [device_at 1; device_at 10] 0)) = []
  /\ clock (task_check_devices registry_steady 10 master0
                               [device_at 1; device_at 10] 0) = 5000.
Proof.
  assert (H : forall k, (k < 10)%nat ->
                        all_present registry_steady (pass_time 0 k)
                                    [device_at 1; device_at 10] = true)
    by (intros k Hk; reflexivity).
  split; [exact H |].
  destruct (task_check_devices_all_present_keeps_polling
              registry_steady master0 [device_at 1; device_at 10] 0 10 H)
    as (Hv & Hf & _ & _ & Hc).
  split; [exact Hv |]. split; [exact Hf | exact Hc].
Defined.

(** C1, as the code has it.  In every run in which pass number [n] is
    the first to find a device absent, and the first absent device in
    the order of the list is [d], whatever comes after [d] in the list,
    the task returns 1 at that pass: it has rumbled "---" once and
    printed "DEVICE UNPLUGGED!!!" at line 0, column 0 once, these two
    calls are its last events, and the registry reads before them end
    with those for the port of [d].  The value returned is 1 whatever
    the port. *)
Theorem task_check_devices_first_absent_trips
        (plugged : Z -> Z -> DeviceType) (master : Controller)
        (pre post : list Device) (d : Device) (t0 : Z) (n fuel : nat) :
  (forall k, (k < n)%nat ->
             all_present plugged (pass_time t0 k) (pre ++ d :: post) = true) ->
  all_present plugged (pass_time t0 n) pre = true ->
  kind_present (plugged (pass_time t0 n) (get_port d)) = false ->
  (n < fuel)%nat ->
  let r := task_check_devices plugged fuel master (pre ++ d :: post) t0 in
  value r = Some 1
  /\ events r
     = quiet_passes plugged n t0 (pre ++ d :: post)
         ++ scan_queries plugged (pass_time t0 n) pre
         ++ presence_queries plugged (pass_time t0 n) (get_port d)
         ++ [ev_rumble master "---";
             ev_print master 0 0 "DEVICE UNPLUGGED!!!"]
  /\ filter is_rumble (events r) = [ev_rumble master "---"]
  /\ filter is_print (events r)
     = [ev_print master 0 0 "DEVICE UNPLUGGED!!!"]
  /\ clock r = pass_time t0 n.
Proof.
  intros Hquiet Hpre Hd Hfuel r. subst r.
  rewrite (task_check_devices_trip plugged master n fuel t0 pre post d
             Hquiet Hpre Hd Hfuel).
  cbn [value events clock].
  assert (Hscan : scan_queries plugged (pass_time t0 n) (pre ++ [d])
                  = scan_queries plugged (pass_time t0 n) pre
                      ++ presence_queries plugged (pass_time t0 n)
                                          (get_port d)).
  { unfold scan_queries. rewrite flat_map_app. cbn [flat_map].
    now rewrite app_nil_r. }
  rewrite Hscan, <- !app_assoc.
  split; [reflexivity |]. split; [reflexivity |].
  split; [| split; [| reflexivity]].
  - rewrite !filter_app.
    rewrite quiet_passes_filter, scan_queries_filter,
            presence_queries_filter by reflexivity.
    reflexivity.
  - rewrite !filter_app.
    rewrite quiet_passes_filter, scan_queries_filter,
            presence_queries_filter by reflexivity.
    reflexivity.
Qed.

Lemma task_check_devices_first_absent_trips_witness :
  (forall k, (k < 3)%nat ->
             all_present registry_imu_lost (pass_time 0 k)
                         ([device_at 1] ++ device_at 10 :: []) = true)
  /\ all_present registry_imu_lost (pass_time 0 3) [device_at 1] = true
  /\ kind_present (registry_imu_lost (pass_time 0 3) 10) = false
  /\ value (task_check_devices registry_imu_lost 4 master0
                               [device_at 1; device_at 10] 0) = Some 1
  /\ filter is_rumble
            (events (task_check_devices registry_imu_lost 4 master0
                                        [device_at 1; device_at 10] 0))
     = [ev_rumble master0 "---"]
  /\ filter is_print
            (events (task_check_devices registry_imu_lost 4 master0
                                        [device_at 1; device_at 10] 0))
     = [ev_print master0 0 0 "DEVICE UNPLUGGED!!!"]
  /\ clock (task_check_devices registry_imu_lost 4 master0
                               [device_at 1; device_at 10] 0) = 1500.
Proof.
  assert (Hquiet : forall k, (k < 3)%nat ->
                     all_present registry_imu_lost (pass_time 0 k)
                                 ([device_at 1] ++ device_at 10 :: []) = true).
  { intros k Hk. destruct k as [| [| [| k]]]; try reflexivity. lia. }
  assert (Hpre : all_present registry_imu_lost (pass_time 0 3) [device_at 1]
                 = true) by reflexivity.
  assert (Hd : kind_present
                 (registry_imu_lost (pass_time 0 3) (get_port (device_at 10)))
               = false) by reflexivity.
  assert (Hfuel : (3 < 4)%nat) by lia.
  destruct (task_check_devices_first_absent_trips
              registry_imu_lost master0 [device_at 1] [] (device_at 10)
              0 3 4 Hquiet Hpre Hd Hfuel)
    as (Hv & _ & Hr & Hp & Hc).
  repeat split; assumption.
Defined.

(** C1, as stated, asks for a result that names the port of the first
    absent device.  Nothing the task hands back does: the run over ports
    1, 2, 3 that trips on port 2 and the run over ports 1, 10 that trips
    on port 10 return the same value and make the same calls on the
    controller, so no reading of the result gives the port in both. *)
Lemma task_result_does_not_name_port :
  ~ (exists name_of : option Z * list event -> Z,
        forall (plugged : Z -> Z -> DeviceType) (master : Controller)
               (devices : list Device) (t0 : Z) (n : nat) (p : Z),
          first_absent_at plugged devices t0 n p ->
          name_of (task_result
                     (task_check_devices plugged (S n) master devices t0))
          = p).
Proof.
  intros [name_of Hnames].
  assert (H2 : first_absent_at registry_two_lost
                 [device_at 1; device_at 2; device_at 3] 0 0 2).
  { split.
    - intros k Hk. lia.
    - exists [device_at 1], (device_at 2), [device_at 3].
      repeat split. }
  assert (H10 : first_absent_at registry_imu_lost
                  [device_at 1; device_at 10] 0 3 10).
  { split.
    - intros k Hk. destruct k as [| [| [| k]]]; try reflexivity. lia.
    - exists [device_at 1], (device_at 10), [].
      repeat split. }
  apply (Hnames _ master0) in H2.
  apply (Hnames _ master0) in H10.
  assert (Hsame :
            task_result
              (task_check_devices registry_two_lost 1 master0
                 [device_at 1; device_at 2; device_at 3] 0)
            = task_result
                (task_check_devices registry_imu_lost 4 master0
                   [device_at 1; device_at 10] 0))
    by reflexivity.
  rewrite Hsame in H2. rewrite H2 in H10. discriminate H10.
Qed.

(** ** Scenarios, evaluated *)

(** Devices at ports 2 and 3 both absent in the first pass: one rumble,
    one print, and port 3 is not read. *)
Example task_check_devices_two_lost :
  task_check_devices registry_two_lost 5 master0
                     [device_at 1; device_at 2; device_at 3] 0
  = Build_outcome
      (Some 1)
      [ev_get_plugged_type 1 motor; ev_get_plugged_type 1 motor;
       ev_get_plugged_type 2 none;
       ev_rumble master0 "---";
       ev_print master0 0 0 "DEVICE UNPLUGGED!!!"]
      0.
Proof. reflexivity. Qed.

(** A present motor and an absent port: the report has the line of the
    motor only. *)
Example print_unplugged_devices_motor_and_none :
  value (print_unplugged_devices_output registry_mixed
                                 [device_at 1; device_at 2] 0)
  = ("motor: 1," ++ newline)%string.
Proof. reflexivity. Qed.

(** A kind the registry reports as [undefined] is read twice and counts
    as absent. *)
Example isPluggedIn_undefined :
  isPluggedIn (fun _ _ => undefined) 7 0
  = Build_outcome false
      [ev_get_plugged_type 7 undefined; ev_get_plugged_type 7 undefined] 0.
Proof. reflexivity. Qed.

(** ** Further properties of the predicates and validators *)

Lemma motor_group_appends_repeat
      (plugged : Z -> Z -> DeviceType) (t port : Z) :
  motor_group_appends plugged t port
  = repeat port (motor_group_multiplicity (plugged t port)).
Proof.
  unfold motor_group_appends.
  destruct (plugged t port); reflexivity.
Qed.

Lemma all_present_false_split
      (plugged : Z -> Z -> DeviceType) (t : Z) (devices : list Device) :
  all_present plugged t devices = false ->
  exists pre d post,
    devices = pre ++ d :: post
    /\ all_present plugged t pre = true
    /\ kind_present (plugged t (get_port d)) = false.
Proof.
  induction devices as [| d rest IH]; cbn [all_present forallb].
  - discriminate.
  - destruct (kind_present (plugged t (get_port d))) eqn:K; cbn [andb].
    + intro H. destruct (IH H) as (pre & d' & post & -> & Hpre & Hd').
      exists (d :: pre), d', post. repeat split.
      * cbn [all_present forallb]. rewrite K. exact Hpre.
      * exact Hd'.
    + intros _. exists [], d, rest. repeat split. exact K.
Qed.

Lemma filter_absent_nil_iff
      (plugged : Z -> Z -> DeviceType) (t : Z) (devices : list Device) :
  filter (fun d => negb (kind_present (plugged t (get_port d)))) devices = []
  <-> all_present plugged t devices = true.
Proof.
  induction devices as [| d rest IH]; cbn [filter all_present forallb].
  - split; reflexivity.
  - destruct (kind_present (plugged t (get_port d))); cbn [negb andb].
    + exact IH.
    + split; discriminate.
Qed.

Lemma filter_absent_head
      (plugged : Z -> Z -> DeviceType) (t : Z) (devices : list Device)
      (d : Device) (others : list Device) :
  filter (fun d => negb (kind_present (plugged t (get_port d)))) devices
  = d :: others ->
  exists pre post,
    devices = pre ++ d :: post
    /\ all_present plugged t pre = true
    /\ kind_present (plugged t (get_port d)) = false.
Proof.
  induction devices as [| x rest IH]; cbn [filter].
  - discriminate.
  - destruct (kind_present (plugged t (get_port x))) eqn:K; cbn [negb].
    + intro H. destruct (IH H) as (pre & post & -> & Hpre & Hd).
      exists (x :: pre), post. repeat split.
      * cbn [all_present forallb]. rewrite K. exact Hpre.
      * exact Hd.
    + intro H. injection H as <- _.
      exists [], rest. repeat split. exact K.
Qed.

(** X1. At one port and one time at most one of [isMotor], [isImu],
    [isRadio], [isRotation] answers true, and whenever one of them does,
    [isPluggedIn] answers true as well. *)
Theorem kind_predicates_exclusive_and_plugged
        (plugged : Z -> Z -> DeviceType) (port t : Z) :
  let m := value (isMotor plugged port t) in
  let i := value (isImu plugged port t) in
  let r := value (isRadio plugged port t) in
  let o := value (isRotation plugged port t) in
  (m && i = false) /\ (m && r = false) /\ (m && o = false)
  /\ (i && r = false) /\ (i && o = false) /\ (r && o = false)
  /\ implb (m || i || r || o) (value (isPluggedIn plugged port t)) = true.
Proof.
  unfold isMotor, isImu, isRadio, isRotation.
  rewrite !plugged_type_is_run, isPluggedIn_value. cbn [value].
  destruct (plugged t port); repeat split; reflexivity.
Qed.

(** X2. [checkMotorGroup] lists exactly the ports of the group: a port
    is in the result if and only if it is in the group, whatever is
    plugged at it; so the result is empty only for an empty group, and
    no port that is not a motor or not plugged in is missed. *)
Theorem checkMotorGroup_lists_every_port
        (plugged : Z -> Z -> DeviceType) (group : MotorGroup) (t : Z) :
  (forall port,
      In port (value (checkMotorGroup plugged group t))
      <-> In port (get_port_all group))
  /\ (value (checkMotorGroup plugged group t) = []
      <-> get_port_all group = [])
  /\ incl (not_motor_or_not_plugged plugged t (get_port_all group))
          (value (checkMotorGroup plugged group t)).
Proof.
  rewrite checkMotorGroup_run. cbn [value].
  assert (Hin : forall port,
             In port (flat_map (motor_group_appends plugged t)
                               (get_port_all group))
             <-> In port (get_port_all group)).
  { intro port. rewrite in_flat_map. split.
    - intros (q & Hq & Hport).
      rewrite motor_group_appends_repeat in Hport.
      apply repeat_spec in Hport. now subst.
    - intro H. exists port. split; [exact H |].
      rewrite motor_group_appends_repeat.
      destruct (plugged t port); cbn; left; reflexivity. }
  split; [exact Hin |]. split.
  - split.
    + intro Hnil. destruct (get_port_all group) as [| port rest] eqn:G;
        [reflexivity |].
      assert (Hp : In port (port :: rest)) by (left; reflexivity).
      apply Hin in Hp. rewrite Hnil in Hp. destruct Hp.
    + intros ->. reflexivity.
  - intros port Hport. apply Hin.
    unfold not_motor_or_not_plugged in Hport.
    apply filter_In in Hport. apply Hport.
Qed.

(** X3. In the result of [checkMotorGroup] a port occurs once for each
    of its occurrences in the group when a motor, nothing or an
    undefined kind is plugged at it, and twice for each of them when any
    other kind is; the result is thus at least as long as the group and
    at most twice as long. *)
Theorem checkMotorGroup_multiplicity
        (plugged : Z -> Z -> DeviceType) (group : MotorGroup) (t : Z) :
  (forall port,
      count_occ Z.eq_dec (value (checkMotorGroup plugged group t)) port
      = (count_occ Z.eq_dec (get_port_all group) port
         * motor_group_multiplicity (plugged t port))%nat)
  /\ (List.length (get_port_all group)
      <= List.length (value (checkMotorGroup plugged group t))
      <= 2 * List.length (get_port_all group))%nat.
Proof.
  rewrite checkMotorGroup_run. cbn [value].
  split.
  - intro port.
    induction (get_port_all group) as [| q rest IH]; [reflexivity |].
    cbn [flat_map]. rewrite count_occ_app, IH, motor_group_appends_repeat.
    destruct (Z.eq_dec q port) as [-> | Hne].
    + rewrite count_occ_cons_eq by reflexivity.
      rewrite count_occ_repeat_eq by reflexivity. lia.
    + rewrite count_occ_cons_neq by exact Hne.
      rewrite count_occ_repeat_neq by congruence. lia.
  - induction (get_port_all group) as [| q rest IH]; [cbn; lia |].
    cbn [flat_map List.length]. rewrite List.length_app, motor_group_appends_repeat.
    rewrite repeat_length.
    assert (1 <= motor_group_multiplicity (plugged t q) <= 2)%nat
      by (destruct (plugged t q); cbn; lia).
    lia.
Qed.

(** X4. [checkDevices] returns the empty list exactly when [isPluggedIn]
    answers true for the port of every device of the list; an empty list
    of devices gives an empty result. *)
Theorem checkDevices_empty_iff_all_plugged
        (plugged : Z -> Z -> DeviceType) (devices : list Device) (t : Z) :
  value (checkDevices plugged devices t) = []
  <-> (forall d, In d devices ->
                 value (isPluggedIn plugged (get_port d) t) = true).
Proof.
  rewrite checkDevices_run. cbn [value]. split.
  - intros Hnil d Hd. rewrite isPluggedIn_value.
    apply map_eq_nil in Hnil. apply filter_absent_nil_iff in Hnil.
    unfold all_present in Hnil. rewrite forallb_forall in Hnil.
    now apply Hnil.
  - intro Hall.
    replace (filter (fun d => negb (kind_present (plugged t (get_port d))))
                    devices) with (@nil Device); [reflexivity |].
    symmetry. apply filter_absent_nil_iff.
    unfold all_present. apply forallb_forall.
    intros d Hd. rewrite <- isPluggedIn_value. now apply Hall.
Qed.

Lemma forallb_flat_map_events {A} (sel : event -> bool)
      (evs : A -> list event) (xs : list A) :
  (forall x, forallb sel (evs x) = true) ->
  forallb sel (flat_map evs xs) = true.
Proof.
  intro H. induction xs as [| x rest IH]; [reflexivity |].
  cbn [flat_map]. rewrite forallb_app, H, IH. reflexivity.
Qed.

Lemma length_flat_map_le {A} (evs : A -> list event) (bound : nat)
      (xs : list A) :
  (forall x, (List.length (evs x) <= bound)%nat) ->
  (List.length (flat_map evs xs) <= bound * List.length xs)%nat.
Proof.
  intro H. induction xs as [| x rest IH]; [cbn; lia |].
  cbn [flat_map List.length]. rewrite List.length_app.
  specialize (H x). lia.
Qed.

Lemma presence_queries_reads (plugged : Z -> Z -> DeviceType) (t port : Z) :
  forallb is_query (presence_queries plugged t port) = true
  /\ (1 <= List.length (presence_queries plugged t port) <= 2)%nat.
Proof.
  unfold presence_queries. destruct (plugged t port); cbn; split; lia || reflexivity.
Qed.

(** X5. The validators and the report are snapshots: [checkMotorGroup],
    [checkDevices], [print_unplugged_devices] and [checkImu] only read
    the registry (no call on the controller, no delay, the clock stands
    still), at most three times for each port of a group or device of a
    report and at most twice for each device of [checkDevices]. *)
Theorem validators_only_read_registry
        (plugged : Z -> Z -> DeviceType) (group : MotorGroup)
        (devices : list Device) (port t : Z) :
  (forallb is_query (events (checkMotorGroup plugged group t)) = true
   /\ clock (checkMotorGroup plugged group t) = t
   /\ (List.length (events (checkMotorGroup plugged group t))
       <= 3 * List.length (get_port_all group))%nat)
  /\ (forallb is_query (events (checkDevices plugged devices t)) = true
      /\ clock (checkDevices plugged devices t) = t
      /\ (List.length (events (checkDevices plugged devices t))
          <= 2 * List.length devices)%nat)
  /\ (forallb is_query
              (events (print_unplugged_devices plugged devices t)) = true
      /\ clock (print_unplugged_devices plugged devices t) = t
      /\ (List.length (events (print_unplugged_devices plugged devices t))
          <= 3 * List.length devices)%nat)
  /\ (forallb is_query (events (checkImu plugged port t)) = true
      /\ clock (checkImu plugged port t) = t
      /\ (List.length (events (checkImu plugged port t)) <= 3)%nat).
Proof.
  rewrite checkMotorGroup_run, checkDevices_run, print_unplugged_devices_run.
  cbn [value events clock].
  repeat split.
  - apply forallb_flat_map_events. intro q. unfold motor_group_queries.
    cbn [forallb is_query andb]. apply presence_queries_reads.
  - apply length_flat_map_le. intro q. unfold motor_group_queries.
    cbn [List.length].
    pose proof (proj2 (presence_queries_reads plugged t q)). lia.
  - apply forallb_flat_map_events. intro d. apply presence_queries_reads.
  - apply length_flat_map_le. intro d.
    pose proof (proj2 (presence_queries_reads plugged t (get_port d))). lia.
  - apply forallb_flat_map_events. intro d. unfold report_queries.
    rewrite forallb_app, (proj1 (presence_queries_reads plugged t _)).
    destruct (kind_present (plugged t (get_port d))); reflexivity.
  - apply length_flat_map_le. intro d. unfold report_queries.
    rewrite List.length_app.
    pose proof (proj2 (presence_queries_reads plugged t (get_port d))).
    destruct (kind_present (plugged t (get_port d))); cbn [List.length]; lia.
  - unfold checkImu, and_then, bind. rewrite plugged_type_is_run.
    cbn [value events clock].
    destruct (DeviceType_eqb (plugged t port) imu).
    + rewrite isPluggedIn_run. cbn [events app forallb is_query andb].
      apply presence_queries_reads.
    + reflexivity.
  - unfold checkImu, and_then, bind. rewrite plugged_type_is_run.
    cbn [value events clock].
    destruct (DeviceType_eqb (plugged t port) imu).
    + rewrite isPluggedIn_run. reflexivity.
    + reflexivity.
  - unfold checkImu, and_then, bind. rewrite plugged_type_is_run.
    cbn [value events clock].
    destruct (DeviceType_eqb (plugged t port) imu).
    + rewrite isPluggedIn_run. cbn [events app List.length].
      pose proof (proj2 (presence_queries_reads plugged t port)). lia.
    + cbn. lia.
Qed.

(** X6. [deviceType_to_string] gives two kinds the same name only when
    they are the same kind or both lie outside the twelve enumerators:
    the name of an enumerator identifies it, and "unknown" is the name
    of no enumerator. *)
Theorem deviceType_to_string_identifies_enumerators (a b : DeviceType) :
  deviceType_to_string a = deviceType_to_string b
  <-> a = b \/ exists ra rb, a = synthesized ra /\ b = synthesized rb.
Proof.
  split.
  - destruct a, b; cbn; intro H;
      try (left; reflexivity); try discriminate H.
    right. eauto.
  - intros [-> | (ra & rb & -> & ->)]; reflexivity.
Qed.

(** ** Further properties of the report *)

Lemma count_char_append (c : ascii) (a b : string) :
  count_char c (a ++ b)%string = (count_char c a + count_char c b)%nat.
Proof.
  induction a as [| ch a IH]; cbn [String.append count_char].
  - reflexivity.
  - rewrite IH. lia.
Qed.

Lemma count_line_feed_uint (d : Decimal.uint) :
  count_char line_feed (NilEmpty.string_of_uint d) = 0%nat.
Proof. induction d; cbn; try assumption; reflexivity. Qed.

Lemma count_line_feed_to_string (n : Z) :
  count_char line_feed (to_string n) = 0%nat.
Proof.
  unfold to_string, NilZero.string_of_int, NilZero.string_of_uint.
  destruct (Z.to_int n) as [d | d]; destruct d;
    try reflexivity;
    cbn [count_char NilEmpty.string_of_uint];
    rewrite count_line_feed_uint; reflexivity.
Qed.

Lemma count_line_feed_report_line
      (plugged : Z -> Z -> DeviceType) (t : Z) (d : Device) :
  count_char line_feed (report_line plugged t d) = 1%nat.
Proof.
  unfold report_line. rewrite !count_char_append, count_line_feed_to_string.
  destruct (plugged t (get_port d)); reflexivity.
Qed.

Lemma count_line_feed_concat_lines
      (plugged : Z -> Z -> DeviceType) (t : Z) (devices : list Device) :
  count_char line_feed (concat_lines (map (report_line plugged t) devices))
  = List.length devices.
Proof.
  induction devices as [| d rest IH]; [reflexivity |].
  cbn [map concat_lines fold_right List.length].
  rewrite count_char_append, count_line_feed_report_line.
  unfold concat_lines in IH. rewrite IH. reflexivity.
Qed.

Lemma filter_present_nil_iff
      (plugged : Z -> Z -> DeviceType) (t : Z) (devices : list Device) :
  filter (fun d => kind_present (plugged t (get_port d))) devices = []
  <-> (forall d, In d devices ->
                 kind_present (plugged t (get_port d)) = false).
Proof.
  induction devices as [| d rest IH]; cbn [filter].
  - split; [intros _ d [] | reflexivity].
  - destruct (kind_present (plugged t (get_port d))) eqn:K.
    + split; [discriminate |].
      intro H. specialize (H d (or_introl eq_refl)). congruence.
    + rewrite IH. split.
      * intros H x [<- | Hx]; [exact K | now apply H].
      * intros H x Hx. apply H. right. exact Hx.
Qed.

(** X7. The text [print_unplugged_devices] builds has exactly one line
    feed for each device of the list for which [isPluggedIn] answers
    true: kind names and port numbers never contain one, so the lines
    of the report can be counted and split at line feeds. *)
Theorem print_unplugged_devices_line_count
        (plugged : Z -> Z -> DeviceType) (devices : list Device) (t : Z) :
  count_char line_feed (value (print_unplugged_devices_output plugged devices t))
  = List.length
      (filter (fun d => value (isPluggedIn plugged (get_port d) t)) devices).
Proof.
  rewrite print_unplugged_devices_output_run. cbn [value].
  rewrite count_line_feed_concat_lines. f_equal.
  apply filter_ext. intro d. now rewrite isPluggedIn_value.
Qed.

(** X8. Taken at the same time, [checkDevices] and
    [print_unplugged_devices] split the list of devices between them:
    the ports the first returns and the lines of the second add up to
    the number of devices. *)
Theorem checkDevices_and_report_cover_devices
        (plugged : Z -> Z -> DeviceType) (devices : list Device) (t : Z) :
  (List.length (value (checkDevices plugged devices t))
   + count_char line_feed
                (value (print_unplugged_devices_output plugged devices t)))%nat
  = List.length devices.
Proof.
  rewrite checkDevices_run, print_unplugged_devices_output_run. cbn [value].
  rewrite count_line_feed_concat_lines, List.length_map.
  rewrite Nat.add_comm.
  apply (filter_length (fun d => kind_present (plugged t (get_port d)))).
Qed.

(** X9. The text [print_unplugged_devices] builds is empty if and only
    if [isPluggedIn] answers false for every device of the list. *)
Theorem print_unplugged_devices_empty_iff
        (plugged : Z -> Z -> DeviceType) (devices : list Device) (t : Z) :
  value (print_unplugged_devices_output plugged devices t) = ""
  <-> (forall d, In d devices ->
                 value (isPluggedIn plugged (get_port d) t) = false).
Proof.
  rewrite print_unplugged_devices_output_run. cbn [value].
  split.
  - intros Hempty d Hd. rewrite isPluggedIn_value.
    assert (Hlen : List.length
                     (filter (fun d => kind_present (plugged t (get_port d)))
                             devices) = 0%nat).
    { rewrite <- (count_line_feed_concat_lines plugged t), Hempty.
      reflexivity. }
    apply length_zero_iff_nil in Hlen.
    now apply (proj1 (filter_present_nil_iff plugged t devices) Hlen).
  - intro Habsent.
    replace (filter (fun d => kind_present (plugged t (get_port d))) devices)
      with (@nil Device); [reflexivity |].
    symmetry. apply filter_present_nil_iff.
    intros d Hd. rewrite <- isPluggedIn_value. now apply Habsent.
Qed.

(** ** Further properties of the watchdog task *)

(** Among the first [fuel] passes either none finds a device absent, or
    there is a first one that does, and a first absent device in it. *)
Lemma first_absent_pass
      (plugged : Z -> Z -> DeviceType) (devices : list Device) (t0 : Z)
      (fuel : nat) :
  (forall k, (k < fuel)%nat ->
             all_present plugged (pass_time t0 k) devices = true)
  \/ exists n pre d post,
      (n < fuel)%nat
      /\ devices = pre ++ d :: post
      /\ (forall k, (k < n)%nat ->
                    all_present plugged (pass_time t0 k) devices = true)
      /\ all_present plugged (pass_time t0 n) pre = true
      /\ kind_present (plugged (pass_time t0 n) (get_port d)) = false.
Proof.
  induction fuel as [| fuel IH].
  - left. intros k Hk. lia.
  - destruct IH as [Hquiet | (n & pre & d & post & Hn & Hdev & Hq & Hpre & Hd)].
    + destruct (all_present plugged (pass_time t0 fuel) devices) eqn:Hlast.
      * left. intros k Hk.
        destruct (Nat.eq_dec k fuel) as [-> | Hne];
          [exact Hlast | apply Hquiet; lia].
      * right.
        destruct (all_present_false_split plugged _ devices Hlast)
          as (pre & d & post & Hdev & Hpre & Hd).
        exists fuel, pre, d, post. repeat split; try assumption. lia.
    + right. exists n, pre, d, post. repeat split; try assumption. lia.
Qed.

(** Every run of the task cut after [fuel] passes is of one of two
    shapes: still looping after [fuel] quiet passes, or returned 1 at
    the first pass that found a device absent. *)
Lemma task_check_devices_outcome
      (plugged : Z -> Z -> DeviceType) (master : Controller)
      (devices : list Device) (t0 : Z) (fuel : nat) :
  ((forall k, (k < fuel)%nat ->
              all_present plugged (pass_time t0 k) devices = true)
   /\ task_check_devices plugged fuel master devices t0
      = Build_outcome None (quiet_passes plugged fuel t0 devices)
                      (pass_time t0 fuel))
  \/ exists n pre d post,
      (n < fuel)%nat
      /\ devices = pre ++ d :: post
      /\ (forall k, (k < n)%nat ->
                    all_present plugged (pass_time t0 k) devices = true)
      /\ all_present plugged (pass_time t0 n) pre = true
      /\ kind_present (plugged (pass_time t0 n) (get_port d)) = false
      /\ task_check_devices plugged fuel master devices t0
         = Build_outcome
             (Some 1)
             (quiet_passes plugged n t0 devices
                ++ scan_queries plugged (pass_time t0 n) (pre ++ [d])
                ++ [ev_rumble master "---";
                    ev_print master 0 0 "DEVICE UNPLUGGED!!!"])
             (pass_time t0 n).
Proof.
  destruct (first_absent_pass plugged devices t0 fuel)
    as [Hquiet | (n & pre & d & post & Hn & Hdev & Hq & Hpre & Hd)].
  - left. split; [exact Hquiet |].
    now apply task_check_devices_quiet.
  - right. exists n, pre, d, post.
    repeat split; try assumption.
    subst devices. now apply task_check_devices_trip.
Qed.

(** X10. After [n] passes the task is still in its loop if and only if
    every device of the list was present at each of these passes: an
    absence at the time of a pass is never overlooked, and nothing else
    makes the task return. *)
Theorem task_check_devices_running_iff_all_present
        (plugged : Z -> Z -> DeviceType) (master : Controller)
        (devices : list Device) (t0 : Z) (n : nat) :
  value (task_check_devices plugged n master devices t0) = None
  <-> (forall k, (k < n)%nat ->
                 all_present plugged (pass_time t0 k) devices = true).
Proof.
  split.
  - intro Hnone.
    destruct (task_check_devices_outcome plugged master devices t0 n)
      as [[Hquiet _] | (m & pre & d & post & _ & _ & _ & _ & _ & Hrun)].
    + exact Hquiet.
    + rewrite Hrun in Hnone. discriminate Hnone.
  - intro Hquiet.
    now rewrite (task_check_devices_quiet plugged master n devices t0 Hquiet).
Qed.

(** X11. In every run of the task the calls on the controller and the
    return go together: while the task has not returned it has made no
    call on the controller; when it has returned, the value is 1, and
    its events end with one rumble "---" followed by one print of
    "DEVICE UNPLUGGED!!!" at line 0, column 0, with no call on the
    controller before them. *)
Theorem task_check_devices_feedback_iff_returned
        (plugged : Z -> Z -> DeviceType) (master : Controller)
        (devices : list Device) (t0 : Z) (fuel : nat) :
  match value (task_check_devices plugged fuel master devices t0) with
  | None =>
      filter is_feedback
             (events (task_check_devices plugged fuel master devices t0))
      = []
  | Some v =>
      v = 1
      /\ exists reads,
          events (task_check_devices plugged fuel master devices t0)
          = reads ++ [ev_rumble master "---";
                      ev_print master 0 0 "DEVICE UNPLUGGED!!!"]
          /\ filter is_feedback reads = []
  end.
Proof.
  destruct (task_check_devices_outcome plugged master devices t0 fuel)
    as [[_ Hrun] | (n & pre & d & post & _ & _ & _ & _ & _ & Hrun)];
    rewrite Hrun; cbn [value events].
  - apply quiet_passes_filter; reflexivity.
  - split; [reflexivity |].
    exists (quiet_passes plugged n t0 devices
              ++ scan_queries plugged (pass_time t0 n) (pre ++ [d])).
    split.
    + now rewrite <- app_assoc.
    + rewrite filter_app, quiet_passes_filter, scan_queries_filter
        by reflexivity.
      reflexivity.
Qed.



Lemma quiet_passes_no_devices
      (plugged : Z -> Z -> DeviceType) (n : nat) (t : Z) :
  quiet_passes plugged n t [] = repeat (ev_delay 500) n.
Proof.
  revert t. induction n as [| n IH]; intro t; cbn; [| rewrite IH];
    reflexivity.
Qed.

(** X13. With an empty list of devices the task never returns and never
    reads the registry or calls the controller: after any number of
    passes it has only slept 500 ms that many times. *)
Theorem task_check_devices_no_devices
        (plugged : Z -> Z -> DeviceType) (master : Controller)
        (t0 : Z) (n : nat) :
  task_check_devices plugged n master [] t0
  = Build_outcome None (repeat (ev_delay 500) n) (t0 + 500 * Z.of_nat n).
Proof.
  rewrite task_check_devices_quiet by reflexivity.
  now rewrite quiet_passes_no_devices.
Qed.

(** X15. [checkDevices] foretells the task: if, taken at the time of
    each pass, [checkDevices] returns the empty list for the first [n]
    passes and a list that starts with port [p] at the next one, the
    task returns 1 at that pass, and its last registry reads, right
    before the rumble and the print, are those of [isPluggedIn(p)]. *)
Theorem task_check_devices_trips_on_head_of_checkDevices
        (plugged : Z -> Z -> DeviceType) (master : Controller)
        (devices : list Device) (t0 : Z) (n fuel : nat)
        (p : Z) (others : list Z) :
  (forall k, (k < n)%nat ->
             value (checkDevices plugged devices (pass_time t0 k)) = []) ->
  value (checkDevices plugged devices (pass_time t0 n)) = p :: others ->
  (n < fuel)%nat ->
  value (task_check_devices plugged fuel master devices t0) = Some 1
  /\ clock (task_check_devices plugged fuel master devices t0)
     = pass_time t0 n
  /\ exists reads,
      events (task_check_devices plugged fuel master devices t0)
      = reads
          ++ events (isPluggedIn plugged p (pass_time t0 n))
          ++ [ev_rumble master "---";
              ev_print master 0 0 "DEVICE UNPLUGGED!!!"].
Proof.
  intros Hquiet Htrip Hfuel.
  assert (Hq : forall k, (k < n)%nat ->
                 all_present plugged (pass_time t0 k) devices = true).
  { intros k Hk. specialize (Hquiet k Hk).
    rewrite checkDevices_run in Hquiet. cbn [value] in Hquiet.
    apply map_eq_nil in Hquiet. now apply filter_absent_nil_iff. }
  rewrite checkDevices_run in Htrip. cbn [value] in Htrip.
  destruct (filter
              (fun d => negb (kind_present
                                (plugged (pass_time t0 n) (get_port d))))
              devices) as [| d absent] eqn:Hf; [discriminate Htrip |].
  cbn [map] in Htrip. injection Htrip as Hp _.
  destruct (filter_absent_head plugged _ devices d absent Hf)
    as (pre & post & Hdev & Hpre & Hd).
  subst devices.
  rewrite (task_check_devices_trip plugged master n fuel t0 pre post d
             Hq Hpre Hd Hfuel).
  cbn [value events clock]. rewrite isPluggedIn_run. cbn [events].
  split; [reflexivity |]. split; [reflexivity |].
  exists (quiet_passes plugged n t0 (pre ++ d :: post)
            ++ scan_queries plugged (pass_time t0 n) pre).
  unfold scan_queries. rewrite flat_map_app. cbn [flat_map].
  rewrite app_nil_r, Hp, <- !app_assoc. reflexivity.
Qed.

Lemma task_check_devices_trips_on_head_of_checkDevices_witness :
  (forall k, (k < 3)%nat ->
             value (checkDevices registry_imu_lost
                                 [device_at 1; device_at 10]
                                 (pass_time 0 k)) = [])
  /\ value (checkDevices registry_imu_lost [device_at 1; device_at 10]
                         (pass_time 0 3)) = [10]
  /\ value (task_check_devices registry_imu_lost 4 master0
                               [device_at 1; device_at 10] 0) = Some 1
  /\ clock (task_check_devices registry_imu_lost 4 master0
                               [device_at 1; device_at 10] 0) = 1500.
Proof.
  assert (Hquiet : forall k, (k < 3)%nat ->
                     value (checkDevices registry_imu_lost
                                         [device_at 1; device_at 10]
                                         (pass_time 0 k)) = []).
  { intros k Hk. destruct k as [| [| [| k]]]; try reflexivity. lia. }
  assert (Htrip : value (checkDevices registry_imu_lost
                                      [device_at 1; device_at 10]
                                      (pass_time 0 3)) = [10])
    by reflexivity.
  assert (Hfuel : (3 < 4)%nat) by lia.
  destruct (task_check_devices_trips_on_head_of_checkDevices
              registry_imu_lost master0 [device_at 1; device_at 10]
              0 3 4 10 [] Hquiet Htrip Hfuel)
    as (Hv & Hc & _).
  repeat split; assumption.
Defined.

Lemma scan_queries_ports
      (plugged : Z -> Z -> DeviceType) (t : Z) (devices : list Device)
      (port : Z) (answer : DeviceType) :
  In (ev_get_plugged_type port answer) (scan_queries plugged t devices) ->
  In port (map get_port devices) /\ answer = plugged t port.
Proof.
  unfold scan_queries. rewrite in_flat_map.
  intros (d & Hd & Hev).
  assert (port = get_port d /\ answer = plugged t (get_port d)) as [-> ->].
  { unfold presence_queries in Hev.
    destruct (plugged t (get_port d)); cbn in Hev;
      repeat (destruct Hev as [Hev | Hev];
              [injection Hev as <- <-; split; reflexivity |]);
      destruct Hev. }
  split; [now apply in_map | reflexivity].
Qed.

Lemma quiet_passes_ports
      (plugged : Z -> Z -> DeviceType) (n : nat) (t : Z)
      (devices : list Device) (port : Z) (answer : DeviceType) :
  In (ev_get_plugged_type port answer) (quiet_passes plugged n t devices) ->
  In port (map get_port devices).
Proof.
  revert t. induction n as [| n IH]; intro t; cbn [quiet_passes].
  - intros [].
  - rewrite in_app_iff. intros [H | [H | H]].
    + now apply scan_queries_ports in H.
    + discriminate H.
    + now apply (IH (t + 500)).
Qed.

(** X16. The task reads the registry only for ports of devices of its
    list: every registry read among its events is for the port of one
    of them. *)
Theorem task_check_devices_reads_watched_ports_only
        (plugged : Z -> Z -> DeviceType) (master : Controller)
        (devices : list Device) (t0 : Z) (fuel : nat)
        (port : Z) (answer : DeviceType) :
  In (ev_get_plugged_type port answer)
     (events (task_check_devices plugged fuel master devices t0)) ->
  In port (map get_port devices).
Proof.
  destruct (task_check_devices_outcome plugged master devices t0 fuel)
    as [[_ Hrun] | (n & pre & d & post & _ & Hdev & _ & _ & _ & Hrun)];
    rewrite Hrun; cbn [events].
  - apply quiet_passes_ports.
  - rewrite !in_app_iff. intros [H | [H | H]].
    + now apply quiet_passes_ports in H.
    + apply scan_queries_ports in H. destruct H as [H _].
      subst devices. rewrite map_app in *. rewrite in_app_iff in *.
      destruct H as [H | [H | []]].
      * left. exact H.
      * right. left. exact H.
    + destruct H as [H | [H | []]]; discriminate H.
Qed.

Lemma task_check_devices_reads_watched_ports_only_witness :
  In 10 (map get_port [device_at 1; device_at 10]).
Proof.
  apply (task_check_devices_reads_watched_ports_only
           registry_imu_lost master0 [device_at 1; device_at 10] 0 4
           10 none).
  vm_compute. repeat (first [left; reflexivity | right]).
Defined.
